(** * Token verification gateway: the two-key token cache and the [/verify] endpoint

    Shallow embedding of [oidc_client/cache.py] ([save_token], [get_token])
    and of [oidc_app/main.py] ([verify_endpoint]).

    The Python coroutines run sequentially within one request, so every
    [await] is a plain call in a state-and-exception monad over a [World]
    holding the Redis store and a log of the calls that were made to it
    and to the upstream.
    Calls to [logger] do not influence control flow or any value and are
    left out. *)

From Stdlib Require Import ZArith String List Lia.
From stdpp Require Import base option gmap strings fin_maps.
Import ListNotations.

Local Open Scope string_scope.
Local Open Scope list_scope.
Local Open Scope Z_scope.

(** ** Python values and exceptions *)

(** The exceptions that can travel through the two modules.  The first
    three are the [jose] hierarchy: [ExpiredSignatureError] and
    [JWTClaimsError] are subclasses of [JWTError]. *)
Inductive exn : Type :=
  | ExpiredSignatureError
  | JWTClaimsError
  | JWTError
  | ValidationError      (* pydantic: the fields of a TokenData were rejected *)
  | TypeError            (* Python: the argument after the two stars is no mapping *)
  | ConnectionError      (* redis: the store refuses the connection *)
  | TimeoutError         (* redis: the store did not answer in time *)
  | DataError            (* redis client: the value cannot be encoded *)
  | ResponseError.       (* redis server: the command was refused *)

(** [isinstance(e, JWTError)], used by [except JWTError]. *)
Definition isinstance_JWTError (e : exn) : bool :=
  match e with
  | ExpiredSignatureError | JWTClaimsError | JWTError => true
  | _ => false
  end.

(** [isinstance(e, ExpiredSignatureError)], used by
    [except ExpiredSignatureError]. *)
Definition isinstance_ExpiredSignatureError (e : exn) : bool :=
  match e with
  | ExpiredSignatureError => true
  | _ => false
  end.

Inductive Result (A : Type) : Type :=
  | Ok (a : A)
  | Raise (e : exn).
Arguments Ok {A} a.
Arguments Raise {A} e.

(** The scalar values found in a dumped token. *)
Inductive PyVal : Type :=
  | PyStr (s : string)
  | PyInt (z : Z)
  | PyNone.

(** A Python [dict] with string keys, as produced by [model_dump]. *)
Abbreviation PyDict := (gmap string PyVal).

(** The objects that are handed to the store client as a value or handed
    back by it: [bytes] (or a [str], which the client turns into bytes),
    and a [dict]. *)
Inductive PyObj : Type :=
  | PyBytes (b : string)
  | PyMapping (d : PyDict).

(** ** TokenData *)

(** Modelled from the spec: [types.TokenData] is not among the sources; the
    data model gives it the four required fields below, two strings and two
    numbers of seconds. *)
Record TokenData : Type := mkTokenData {
  access_token : string;
  refresh_token : string;
  expires_in : Z;
  refresh_expires_in : Z
}.

(** [token.model_dump()]. *)
Definition model_dump (token : TokenData) : PyDict :=
  <["access_token" := PyStr (access_token token)]>
  (<["refresh_token" := PyStr (refresh_token token)]>
  (<["expires_in" := PyInt (expires_in token)]>
  (<["refresh_expires_in" := PyInt (refresh_expires_in token)]> ∅))).

(** [types.TokenData] called with the entries of [value] as keyword
    arguments.  Python unpacks a mapping only: for bytes the call raises
    [TypeError] before pydantic is reached.  For a mapping every required
    field must be present with a value of its type, otherwise pydantic
    raises; keys that are not fields are ignored. *)
Definition TokenData_init (value : PyObj) : Result TokenData :=
  match value with
  | PyBytes _ => Raise TypeError
  | PyMapping d =>
      match d !! "access_token", d !! "refresh_token",
            d !! "expires_in", d !! "refresh_expires_in" with
      | Some (PyStr a), Some (PyStr r), Some (PyInt e), Some (PyInt re) =>
          Ok (mkTokenData a r e re)
      | _, _, _, _ => Raise ValidationError
      end
  end.

(** ** The world: Redis and the I/O log *)

(** The calls made to the store client and to the upstream, with their
    arguments, whether or not they succeeded. *)
Inductive Event : Type :=
  | RedisGet (name : string)
  | RedisSet (name : string) (value : PyObj) (ex : Z)
  | RefreshCall (token : TokenData).

(** The store behind the client that [cache.py] builds with
    [aioredis.from_url].  [redis_db] maps a key to what a read of it hands
    back and to the instant at which it lapses; [redis_now] is the store's
    clock.  [redis_outage] tells whether and when the store stops
    answering: [None] when it answers every command, [Some (n, e)] when it
    answers the next [n] commands and raises [e] on every command after
    them.  [trace] lists the calls made so far, oldest first. *)
Record World : Type := mkWorld {
  redis_db : gmap string (PyObj * Z);
  redis_now : Z;
  redis_outage : option (nat * exn);
  trace : list Event
}.

(** The exception of the outage the store is in or is heading for;
    [None] when the store answers every command. *)
Definition redis_down (w : World) : option exn :=
  match redis_outage w with
  | Some (_, e) => Some e
  | None => None
  end.

(** The exception the next command raises, if the outage has begun. *)
Definition failing (w : World) : option exn :=
  match redis_outage w with
  | Some (O, e) => Some e
  | _ => None
  end.

(** The store has answered one more command. *)
Definition answered (w : World) : World :=
  match redis_outage w with
  | Some (S n, e) =>
      mkWorld (redis_db w) (redis_now w) (Some (n, e)) (trace w)
  | _ => w
  end.

Definition log (ev : Event) (w : World) : World :=
  mkWorld (redis_db w) (redis_now w) (redis_outage w) (trace w ++ [ev]).

(** What the store holds under [name] at its current time: a key whose
    lease has lapsed is gone. *)
Definition live (w : World) (name : string) : option PyObj :=
  match redis_db w !! name with
  | Some (value, deadline) =>
      if redis_now w <? deadline then Some value else None
  | None => None
  end.

(** [d] seconds pass; nothing else happens. *)
Definition elapse (d : Z) (w : World) : World :=
  mkWorld (redis_db w) (redis_now w + d) (redis_outage w) (trace w).

(** ** The monad of the coroutines *)

Definition M (A : Type) : Type := World -> Result A * World.

Definition ret {A : Type} (a : A) : M A := fun w => (Ok a, w).

Definition raise {A : Type} (e : exn) : M A := fun w => (Raise e, w).

Definition bind {A B : Type} (c : M A) (k : A -> M B) : M B :=
  fun w =>
    match c w with
    | (Ok a, w') => k a w'
    | (Raise e, w') => (Raise e, w')
    end.

Definition lift {A : Type} (r : Result A) : M A := fun w => (r, w).

Notation "x <- c1 ;; c2" := (bind c1 (fun x => c2))
  (at level 100, c1 at next level, right associativity).
Notation "c1 ;;; c2" := (bind c1 (fun _ => c2))
  (at level 100, right associativity).

(** ** Redis commands *)

(** [await redis.get(name)]: the store's exception when it does not
    answer, otherwise what it holds under [name]. *)
Definition redis_get (name : string) : M (option PyObj) :=
  fun w =>
    let w' := log (RedisGet name) w in
    match failing w with
    | Some e => (Raise e, w')
    | None => (Ok (live w name), answered w')
    end.

(** [await redis.set(name=..., value=..., ex=...)].  The client first
    takes a connection, which a store that refuses connections fails with
    [ConnectionError]; it then encodes the arguments of the command, and
    its encoder accepts bytes and refuses a [dict] with [DataError], so
    that nothing is sent; only then is the command sent and the answer
    awaited.  The server refuses a TTL that is not positive. *)
Definition redis_set (name : string) (value : PyObj) (ex : Z) : M unit :=
  fun w =>
    let w' := log (RedisSet name value ex) w in
    match failing w with
    | Some ConnectionError => (Raise ConnectionError, w')
    | outage =>
        match value with
        | PyMapping _ => (Raise DataError, w')
        | PyBytes b =>
            match outage with
            | Some e => (Raise e, w')
            | None =>
                if ex <=? 0 then (Raise ResponseError, answered w')
                else
                  (Ok tt,
                   answered
                     (mkWorld
                        (<[name := (PyBytes b, redis_now w + ex)]>
                           (redis_db w))
                        (redis_now w') (redis_outage w') (trace w')))
            end
        end
    end.

(** ** cache.py *)

Definition access_key (key : string) : string := "access_" +:+ key.
Definition refresh_key (key : string) : string := "refresh_" +:+ key.

Definition save_token (key : string) (token : TokenData) : M unit :=
  let value := PyMapping (model_dump token) in
  redis_set (access_key key) value (expires_in token) ;;;
  redis_set (refresh_key key) value (refresh_expires_in token).

Definition get_token (key : string) : M (option TokenData * bool) :=
  let access_expired := false in
  value <- redis_get (access_key key) ;;
  match value with
  | None =>
      let access_expired := true in
      value <- redis_get (refresh_key key) ;;
      match value with
      | None => ret (None, true)
      | Some value =>
          token <- lift (TokenData_init value) ;;
          ret (Some token, access_expired)
      end
  | Some value =>
      token <- lift (TokenData_init value) ;;
      ret (Some token, access_expired)
  end.

(** ** main.py *)

(** What the gateway answers: status code, [Location] header, body and the
    cookies set on the response, in the order they were set. *)
Record Response : Type := mkResponse {
  status_code : Z;
  location : option string;
  content : string;
  cookies : list (string * string)
}.

(** [Response(status_code=...)]. *)
Definition Response_init (status : Z) : Response :=
  mkResponse status None "" [].

(** [RedirectResponse(status_code=..., url=...)]. *)
Definition RedirectResponse (status : Z) (url : string) : Response :=
  mkResponse status (Some url) "" [].

(** [PlainTextResponse(status_code=..., content=...)]. *)
Definition PlainTextResponse (status : Z) (body : string) : Response :=
  mkResponse status None body [].

(** [response.set_cookie(key, value=...)]. *)
Definition set_cookie (r : Response) (key value : string) : Response :=
  mkResponse (status_code r) (location r) (content r)
             (cookies r ++ [(key, value)]).

(** Modelled from the spec: [utils.get_token] is not among the sources; it
    extracts the bearer credential of the request (cookie [access_token] or
    header), so a request is represented by what that extraction yields:
    [None] when there is nothing to extract. *)
Record Request : Type := mkRequest {
  credential : option string
}.

Definition utils_get_token (request : Request) : option string :=
  credential request.

(** Python's [not access_token] for a value that is [None] or a [str]. *)
Definition py_not (s : option string) : bool :=
  match s with
  | None => true
  | Some EmptyString => true
  | Some (String _ _) => false
  end.

Definition HTTP_200_OK : Z := 200.

Section Endpoint.

(** The collaborators [verify_endpoint] calls and that are not among the
    sources: [utils.authorize_url()], [jwt.decode] with the configured
    certificate, algorithms and options (its decoded claims are discarded
    by the caller), and [http_client.refresh_token], which answers with
    the new token or [None], the upstream status code and the upstream
    body. *)
Variable authorize_url : string.
Variable jwt_decode : string -> Result unit.
Variable refresh_token_upstream : TokenData -> option TokenData * Z * string.

(** [await http_client.refresh_token(token_data)]. *)
Definition http_client_refresh_token (token_data : TokenData)
  : M (option TokenData * Z * string) :=
  fun w => (Ok (refresh_token_upstream token_data),
            log (RefreshCall token_data) w).

(** Lines 60 to 98 of [verify_endpoint]: everything after the signature
    check. *)
Definition verify_cached (access_token0 : string) (result : Response)
  : M Response :=
  looked_up <- get_token access_token0 ;;
  let '(token_data, access_expired) := looked_up in
  match token_data with
  | None => ret (RedirectResponse 307 authorize_url)
  | Some token_data =>
      if negb (String.eqb (access_token token_data) access_token0) then
        let msg := "cached token differs from original" in
        ret (PlainTextResponse 500 msg)
      else if access_expired then
        refreshed <- http_client_refresh_token token_data ;;
        let '(new_token_data, upstream_status, upstream_content) :=
          refreshed in
        match new_token_data with
        | None => ret (RedirectResponse 307 authorize_url)
        | Some new_token_data =>
            save_token (access_token new_token_data) new_token_data ;;;
            ret (set_cookie result "access_token"
                            (access_token new_token_data))
        end
      else ret result
  end.

Definition verify_endpoint (request : Request) : M Response :=
  let access_token0 := utils_get_token request in
  let result := Response_init HTTP_200_OK in
  if py_not access_token0 then
    ret (RedirectResponse 307 authorize_url)
  else
    let access_token0 := default "" access_token0 in
    match jwt_decode access_token0 with
    | Ok _ => verify_cached access_token0 result
    | Raise ex =>
        if isinstance_ExpiredSignatureError ex then
          verify_cached access_token0 result
        else if isinstance_JWTError ex then
          ret (RedirectResponse 307 authorize_url)
        else raise ex
    end.

End Endpoint.

(** ** Outcomes of the orchestrator *)

Definition diagnostic : string := "cached token differs from original".

(** Pass-through: 200. *)
Definition Authenticated (r : Response) : Prop := status_code r = 200.

(** Redirect to the authorize URL: 307 with that [Location]. *)
Definition Unauthenticated (authorize_url : string) (r : Response) : Prop :=
  r = RedirectResponse 307 authorize_url.

(** Hard error: 500 with the diagnostic body. *)
Definition ServerError (r : Response) : Prop :=
  status_code r = 500 /\ content r = diagnostic.

(** The signature check lets the request through to the cache lookup:
    [jwt.decode] returned, or raised [ExpiredSignatureError]. *)
Definition passes_signature_check (jwt_decode : string -> Result unit)
    (token : string) : bool :=
  match jwt_decode token with
  | Ok _ => true
  | Raise ex => isinstance_ExpiredSignatureError ex
  end.

Definition is_read (ev : Event) : bool :=
  match ev with RedisGet _ => true | _ => false end.

Definition is_write (ev : Event) : bool :=
  match ev with RedisSet _ _ _ => true | _ => false end.

Definition is_refresh (ev : Event) : bool :=
  match ev with RefreshCall _ => true | _ => false end.

(** The record a lookup of [key] reads in [w]: the access-keyed one when
    it is live, the refresh-keyed one otherwise. *)
Definition record_read (w : World) (key : string) : option PyObj :=
  match live w (access_key key) with
  | Some value => Some value
  | None => live w (refresh_key key)
  end.

(** The store of [w] with the two records of [token] put under the keys
    of [key] as mappings, their leases counted from now: what a lookup
    expects to find. *)
Definition seeded (key : string) (token : TokenData) (w : World) : World :=
  let value := PyMapping (model_dump token) in
  mkWorld
    (<[refresh_key key := (value, redis_now w + refresh_expires_in token)]>
       (<[access_key key := (value, redis_now w + expires_in token)]>
          (redis_db w)))
    (redis_now w) (redis_outage w) (trace w).

(** The exception with which a [redis.set] of a [dict] ends. *)
Definition set_dict_exn (w : World) : exn :=
  match failing w with
  | Some ConnectionError => ConnectionError
  | _ => DataError
  end.

(** What it means for [value] to carry every field of [t]. *)
Definition complete_record (value : PyObj) (t : TokenData) : Prop :=
  match value with
  | PyBytes _ => False
  | PyMapping d =>
      d !! "access_token" = Some (PyStr (access_token t)) /\
      d !! "refresh_token" = Some (PyStr (refresh_token t)) /\
      d !! "expires_in" = Some (PyInt (expires_in t)) /\
      d !! "refresh_expires_in" = Some (PyInt (refresh_expires_in t))
  end.

(** ** Worlds used in the examples *)

Definition T1 : TokenData := mkTokenData "T1" "R1" 5 3600.
Definition T2 : TokenData := mkTokenData "T2" "R2" 5 3600.

(** An empty, healthy store at time 100. *)
Definition w_empty : World := mkWorld ∅ 100 None [].

(** The store holds the two records of [T1], their leases just begun. *)
Definition w_fresh : World := seeded "T1" T1 w_empty.

(** Five seconds later: the access lease of [T1] has lapsed. *)
Definition w_stale : World := elapse 5 w_fresh.

(** An hour later: both leases of [T1] have lapsed. *)
Definition w_lapsed : World := elapse 3600 w_fresh.

(** The store holds, under the keys of [T1], the record of [T2]. *)
Definition w_corrupt : World :=
  mkWorld (<[access_key "T1" := (PyMapping (model_dump T2), 200)]>
             (<[refresh_key "T1" := (PyMapping (model_dump T2), 4000)]> ∅))
          100 None [].

(** A record that lacks three of the four fields. *)
Definition partial_record : PyObj :=
  PyMapping (<["access_token" := PyStr "T1"]> ∅).

(** The store holds that record under the access key of [T1]. *)
Definition w_partial : World :=
  mkWorld (<[access_key "T1" := (partial_record, 200)]> ∅) 100 None [].

(** The store does not answer in time. *)
Definition w_timeout : World :=
  mkWorld ∅ 100 (Some (0%nat, TimeoutError)) [].

(** The store refuses connections. *)
Definition w_refusing : World :=
  mkWorld ∅ 100 (Some (0%nat, ConnectionError)) [].


(** The store holds, under the access key of [T1], the bytes a Redis
    server hands back. *)
Definition w_bytes : World :=
  mkWorld (<[access_key "T1" := (PyBytes "T1", 200)]> ∅) 100 None [].

(** ** Collaborators and requests used in the examples *)

Definition idp : string := "https://idp.example/authorize".

Definition jwt_valid : string -> Result unit := fun _ => Ok tt.
Definition jwt_expired : string -> Result unit :=
  fun _ => Raise ExpiredSignatureError.
Definition jwt_invalid : string -> Result unit := fun _ => Raise JWTError.

(** The upstream rejects the refresh grant. *)
Definition upstream_rejects : TokenData -> option TokenData * Z * string :=
  fun _ => (None, 401, "invalid_grant").

(** The upstream renews every token into [T2]. *)
Definition upstream_renews : TokenData -> option TokenData * Z * string :=
  fun _ => (Some T2, 200, "").


Definition req_T1 : Request := mkRequest (Some "T1").

(** ** main.py: the callback of the identity provider *)

(** The part of the request [oidc_callback] reads: its query parameters,
    one value per name. *)
Record CallbackRequest : Type := mkCallbackRequest {
  query_params : gmap string string
}.

(** How a call of [oidc_callback] ends: with a response, with the
    [KeyError] of a missing query parameter, or with an exception of the
    store. *)
Inductive CallbackResult : Type :=
  | Responded (r : Response)
  | KeyError (key : string)
  | Propagated (e : exn).

(** [Response(status_code=..., content=...)]. *)
Definition Response_content (status : Z) (body : string) : Response :=
  mkResponse status None body [].

Section Callback.

(** The collaborators of [oidc_callback] that are not among the sources:
    [settings.home_url] and [http_client.get_token], which exchanges the
    authorization code and answers with the token or [None], the upstream
    status code and the upstream body.  The exchange does not touch the
    store; the trace of the world keeps recording the store commands
    only. *)
Variable home_url : string.
Variable http_client_get_token : string -> option TokenData * Z * string.

Definition oidc_callback (request : CallbackRequest)
  : World -> CallbackResult * World :=
  fun w =>
    match query_params request !! "code" with
    | None => (KeyError "code", w)
    | Some code =>
        let '(token_data, upstream_status, upstream_content) :=
          http_client_get_token code in
        match token_data with
        | None =>
            (Responded (Response_content upstream_status upstream_content), w)
        | Some token_data =>
            match save_token (access_token token_data) token_data w with
            | (Raise e, w') => (Propagated e, w')
            | (Ok _, w') =>
                let response := RedirectResponse 307 home_url in
                (Responded (set_cookie response "access_token"
                                       (access_token token_data)), w')
            end
        end
    end.

End Callback.

(** ** Counting I/O *)

(** The events [w'] has logged beyond those of [w]. *)
Definition new_events (w w' : World) : list Event :=
  drop (length (trace w)) (trace w').

Definition count (p : Event -> bool) (evs : list Event) : nat :=
  length (List.filter p evs).

(** ** More collaborators and requests used in the examples *)

Definition home : string := "https://app.example/".

(** The identity provider exchanges every code for [T1]. *)
Definition exchange_grants : string -> option TokenData * Z * string :=
  fun _ => (Some T1, 200, "").

(** The identity provider rejects every code. *)
Definition exchange_rejects : string -> option TokenData * Z * string :=
  fun _ => (None, 400, "invalid_grant").

Definition req_code : CallbackRequest :=
  mkCallbackRequest (<["code" := "abc"]> ∅).

Definition req_T2 : Request := mkRequest (Some "T2").

(** * Basic facts *)

(** ** Keys *)

Lemma access_key_inj k k' : access_key k = access_key k' -> k = k'.
Proof. unfold access_key. cbn. intros H. by injection H. Qed.

Lemma refresh_key_inj k k' : refresh_key k = refresh_key k' -> k = k'.
Proof. unfold refresh_key. cbn. intros H. by injection H. Qed.

Lemma access_refresh_ne k k' : access_key k <> refresh_key k'.
Proof. unfold access_key, refresh_key. cbn. discriminate. Qed.

(** ** Serialization *)

Lemma TokenData_init_model_dump t :
  TokenData_init (PyMapping (model_dump t)) = Ok t.
Proof.
  unfold TokenData_init, model_dump.
  rewrite lookup_insert_eq.
  rewrite lookup_insert_ne by done. rewrite lookup_insert_eq.
  do 2 (rewrite lookup_insert_ne by done). rewrite lookup_insert_eq.
  do 3 (rewrite lookup_insert_ne by done). rewrite lookup_insert_eq.
  by destruct t.
Qed.

Lemma TokenData_init_complete value t :
  TokenData_init value = Ok t -> complete_record value t.
Proof.
  unfold TokenData_init, complete_record.
  destruct value as [b | d]; [discriminate |].
  destruct (d !! "access_token") as [[a | |] |]; try discriminate.
  destruct (d !! "refresh_token") as [[r | |] |]; try discriminate.
  destruct (d !! "expires_in") as [[| e |] |]; try discriminate.
  destruct (d !! "refresh_expires_in") as [[| re |] |];
    try discriminate.
  by intros [= <-].
Qed.

(** ** The store *)

Lemma live_log w ev name : live (log ev w) name = live w name.
Proof. reflexivity. Qed.

Lemma live_answered w name : live (answered w) name = live w name.
Proof. unfold answered. by destruct (redis_outage w) as [[[| n] e] |] eqn:H. Qed.

Lemma redis_db_answered w : redis_db (answered w) = redis_db w.
Proof. unfold answered. by destruct (redis_outage w) as [[[| n] e] |] eqn:H. Qed.

Lemma redis_now_answered w : redis_now (answered w) = redis_now w.
Proof. unfold answered. by destruct (redis_outage w) as [[[| n] e] |] eqn:H. Qed.

Lemma trace_answered w : trace (answered w) = trace w.
Proof. unfold answered. by destruct (redis_outage w) as [[[| n] e] |] eqn:H. Qed.

Lemma redis_down_answered w : redis_down (answered w) = redis_down w.
Proof.
  unfold answered, redis_down.
  destruct (redis_outage w) as [[[| n] e] |] eqn:H; cbn; by rewrite ?H.
Qed.

Lemma redis_db_log w ev : redis_db (log ev w) = redis_db w.
Proof. reflexivity. Qed.

Lemma redis_now_log w ev : redis_now (log ev w) = redis_now w.
Proof. reflexivity. Qed.

Lemma redis_down_log w ev : redis_down (log ev w) = redis_down w.
Proof. reflexivity. Qed.

Lemma failing_log w ev : failing (log ev w) = failing w.
Proof. reflexivity. Qed.

Lemma trace_log w ev : trace (log ev w) = trace w ++ [ev].
Proof. reflexivity. Qed.

Create Rewrite HintDb store.
#[local] Hint Rewrite redis_db_answered redis_now_answered redis_down_answered
  trace_answered live_answered redis_db_log redis_now_log redis_down_log
  failing_log trace_log live_log : store.

(** A store without outage answers, and answering leaves it as it is. *)
Lemma redis_outage_up w : redis_down w = None -> redis_outage w = None.
Proof. unfold redis_down. by destruct (redis_outage w) as [[n e] |]. Qed.

Lemma failing_up w : redis_down w = None -> failing w = None.
Proof. intros H. unfold failing. by rewrite (redis_outage_up w H). Qed.

Lemma answered_up w : redis_down w = None -> answered w = w.
Proof. intros H. unfold answered. by rewrite (redis_outage_up w H). Qed.

(** A lookup, as a function of what the store holds and of how long it
    goes on answering. *)
Lemma get_token_unfold key w :
  get_token key w =
  match failing w with
  | Some e => (Raise e, log (RedisGet (access_key key)) w)
  | None =>
      let w1 := answered (log (RedisGet (access_key key)) w) in
      match live w (access_key key) with
      | Some value =>
          (match TokenData_init value with
           | Ok t => Ok (Some t, false)
           | Raise e => Raise e
           end, w1)
      | None =>
          match failing w1 with
          | Some e => (Raise e, log (RedisGet (refresh_key key)) w1)
          | None =>
              let w2 := answered (log (RedisGet (refresh_key key)) w1) in
              match live w (refresh_key key) with
              | Some value =>
                  (match TokenData_init value with
                   | Ok t => Ok (Some t, true)
                   | Raise e => Raise e
                   end, w2)
              | None => (Ok (None, true), w2)
              end
          end
      end
  end.
Proof.
  unfold get_token, bind, redis_get, lift, ret. cbn zeta.
  destruct (failing w) eqn:Hf; [done |].
  destruct (live w (access_key key)) as [v |] eqn:Ha.
  { by destruct (TokenData_init v). }
  destruct (failing (answered (log (RedisGet (access_key key)) w))); [done |].
  rewrite live_answered, live_log.
  destruct (live w (refresh_key key)) as [v |]; [| done].
  by destruct (TokenData_init v).
Qed.

(** The same on a store without outage. *)
Lemma get_token_up key w :
  redis_down w = None ->
  get_token key w =
  match live w (access_key key) with
  | Some value =>
      (match TokenData_init value with
       | Ok t => Ok (Some t, false)
       | Raise e => Raise e
       end, log (RedisGet (access_key key)) w)
  | None =>
      let w2 := log (RedisGet (refresh_key key))
                    (log (RedisGet (access_key key)) w) in
      match live w (refresh_key key) with
      | Some value =>
          (match TokenData_init value with
           | Ok t => Ok (Some t, true)
           | Raise e => Raise e
           end, w2)
      | None => (Ok (None, true), w2)
      end
  end.
Proof.
  intros Hd. rewrite get_token_unfold, (failing_up w Hd). cbn zeta.
  assert (H1 : redis_down (log (RedisGet (access_key key)) w) = None) by done.
  rewrite (answered_up _ H1), (failing_up _ H1).
  assert (H2 : redis_down (log (RedisGet (refresh_key key))
                             (log (RedisGet (access_key key)) w)) = None)
    by done.
  by rewrite (answered_up _ H2).
Qed.

(** A lookup leaves the contents of the store alone and performs reads
    only. *)
Lemma get_token_frame key w r w' :
  get_token key w = (r, w') ->
  redis_db w' = redis_db w /\ redis_now w' = redis_now w /\
  redis_down w' = redis_down w /\
  exists evs, trace w' = trace w ++ evs /\ forallb is_read evs = true.
Proof.
  rewrite get_token_unfold. cbn zeta.
  repeat case_match; intros [= <- <-]; autorewrite with store;
    (split; [done | split; [done | split; [done |]]]);
    rewrite <- ?app_assoc; eexists; (split; [reflexivity | done]).
Qed.

(** What a lookup that found a record says about the store. *)
Lemma get_token_found_inv key w t b w1 :
  get_token key w = (Ok (Some t, b), w1) ->
  failing w = None /\
  exists value,
    TokenData_init value = Ok t /\
    (if b then live w (access_key key) = None /\
               live w (refresh_key key) = Some value
     else live w (access_key key) = Some value).
Proof.
  rewrite get_token_unfold.
  destruct (failing w); [discriminate |]. cbn zeta.
  destruct (live w (access_key key)) as [v |].
  { destruct (TokenData_init v) as [t' |] eqn:Hv; [| discriminate].
    intros [= <- <- _]. eauto. }
  destruct (failing _); [discriminate |].
  destruct (live w (refresh_key key)) as [v |]; [| discriminate].
  destruct (TokenData_init v) as [t' |] eqn:Hv; [| discriminate].
  intros [= <- <- _]. eauto.
Qed.

(** What a lookup answers depends on the store only: its contents, its
    clock and its outage, not on the calls logged so far. *)
Lemma get_token_result_ext key w w' :
  redis_db w' = redis_db w ->
  redis_now w' = redis_now w ->
  redis_outage w' = redis_outage w ->
  fst (get_token key w') = fst (get_token key w).
Proof.
  intros Hdb Hnow Hout. rewrite !get_token_unfold.
  unfold failing, answered, live, log. cbn. rewrite Hdb, Hnow, Hout.
  destruct (redis_outage w) as [[[| [| n]] e] |]; cbn;
    repeat case_match; simplify_eq; done.
Qed.

(** A save ends at its first [redis.set]: the value is a [dict]. *)
Lemma save_token_unfold key token w :
  save_token key token w =
    (Raise (set_dict_exn w),
     log (RedisSet (access_key key) (PyMapping (model_dump token))
                   (expires_in token)) w).
Proof.
  unfold save_token, bind, redis_set, set_dict_exn. cbn zeta.
  by destruct (failing w) as [[] |].
Qed.

(** * The token cache *)



(** The claim of C7 that an undecodable record is treated as absent fails:
    on [w_partial] the record under the access key lacks fields, and the
    lookup raises pydantic's error instead of answering absent. *)
Lemma get_token_undecodable_not_absent :
  ~ (forall key w value e,
        redis_down w = None ->
        record_read w key = Some value ->
        TokenData_init value = Raise e ->
        exists b w', get_token key w = (Ok (None, b), w')).
Proof.
  intros H.
  destruct (H "T1" w_partial partial_record ValidationError)
    as (b & w' & Hget); try reflexivity.
  vm_compute in Hget. discriminate.
Qed.

(** C7 (amended): the lookup never partially decodes a stored record.
    Whenever it returns a found result, the record it read carries every
    field of the TokenData returned; a record that cannot be deserialized
    makes the lookup raise the deserialization error: no partial value is
    returned, and the record is not reported as absent. *)
Theorem get_token_complete_or_raises (key : string) (w : World) :
  (forall t b w',
      get_token key w = (Ok (Some t, b), w') ->
      exists value,
        record_read w key = Some value /\ TokenData_init value = Ok t /\
        complete_record value t) /\
  (forall value e,
      redis_down w = None ->
      record_read w key = Some value ->
      TokenData_init value = Raise e ->
      get_token key w =
        (Raise e,
         match live w (access_key key) with
         | Some _ => log (RedisGet (access_key key)) w
         | None => log (RedisGet (refresh_key key))
                       (log (RedisGet (access_key key)) w)
         end)).
Proof.
  split.
  - intros t b w' Hget. unfold record_read.
    destruct (get_token_found_inv _ _ _ _ _ Hget) as (_ & v & Hv & Hlive).
    exists v. destruct b.
    + destruct Hlive as [-> ->]. eauto using TokenData_init_complete.
    + rewrite Hlive. eauto using TokenData_init_complete.
  - intros value e Hd Hrec Hbad. rewrite get_token_up by done.
    unfold record_read in Hrec.
    destruct (live w (access_key key)) as [v |].
    + injection Hrec as ->. by rewrite Hbad.
    + cbn. by rewrite Hrec, Hbad.
Qed.

Lemma get_token_complete_or_raises_witness :
  (exists value,
      record_read w_stale "T1" = Some value /\
      TokenData_init value = Ok T1 /\ complete_record value T1) /\
  get_token "T1" w_partial =
    (Raise ValidationError, log (RedisGet (access_key "T1")) w_partial).
Proof.
  split.
  - apply (proj1 (get_token_complete_or_raises "T1" w_stale) T1 true
             (log (RedisGet (refresh_key "T1"))
                  (log (RedisGet (access_key "T1")) w_stale))).
    reflexivity.
  - apply (proj2 (get_token_complete_or_raises "T1" w_partial)
             partial_record ValidationError);
      reflexivity.
Defined.

(** C9, as the code behaves: the round trip does not take place.  On a
    store without outage, [save_token] of any TokenData ends in the
    [DataError] of the client at its first [redis.set], whose value is the
    [dict] of [model_dump]; nothing is written, so every lookup answers
    after the save what it answered before it, and a token that was not in
    the store is still absent. *)
Theorem save_token_get_token_roundtrip_fails (t : TokenData) (w : World) :
  redis_down w = None ->
  save_token (access_token t) t w =
    (Raise DataError,
     log (RedisSet (access_key (access_token t)) (PyMapping (model_dump t))
                   (expires_in t)) w) /\
  redis_db (snd (save_token (access_token t) t w)) = redis_db w /\
  (forall key,
      fst (get_token key (snd (save_token (access_token t) t w))) =
      fst (get_token key w)) /\
  (record_read w (access_token t) = None ->
   fst (get_token (access_token t) (snd (save_token (access_token t) t w))) =
     Ok (None, true)).
Proof.
  intros Hd. rewrite save_token_unfold. unfold set_dict_exn.
  rewrite (failing_up w Hd). cbn [snd].
  split; [done |]. split; [done |].
  assert (Hsame : forall key,
    fst (get_token key
           (log (RedisSet (access_key (access_token t))
                   (PyMapping (model_dump t)) (expires_in t)) w)) =
    fst (get_token key w)).
  { intros key. by apply get_token_result_ext. }
  split; [done |]. intros Hnone. rewrite Hsame, get_token_up by done.
  unfold record_read in Hnone.
  destruct (live w (access_key (access_token t))); [done |].
  cbn. by rewrite Hnone.
Qed.

Lemma save_token_get_token_roundtrip_fails_witness :
  save_token "T1" T1 w_empty =
    (Raise DataError,
     log (RedisSet (access_key "T1") (PyMapping (model_dump T1)) 5) w_empty) /\
  fst (get_token "T1" (snd (save_token "T1" T1 w_empty))) = Ok (None, true).
Proof.
  destruct (save_token_get_token_roundtrip_fails T1 w_empty eq_refl)
    as (Hsave & _ & _ & Hlookup).
  split; [exact Hsave | apply Hlookup; reflexivity].
Defined.

(** * The verification orchestrator *)

Lemma py_not_some_false tok : tok <> "" -> py_not (Some tok) = false.
Proof. by destruct tok. Qed.

Lemma eqb_false_of_ne (a b : string) : a <> b -> String.eqb a b = false.
Proof. intros H. by apply String.eqb_neq. Qed.

(** Everything [verify_cached] can do, as a function of what the lookup
    and the upstream answer. *)
Lemma verify_cached_unfold authorize_url refresh tok result w :
  verify_cached authorize_url refresh tok result w =
  match get_token tok w with
  | (Raise e, w1) => (Raise e, w1)
  | (Ok (None, _), w1) => (Ok (RedirectResponse 307 authorize_url), w1)
  | (Ok (Some td, access_expired), w1) =>
      if String.eqb (access_token td) tok then
        if access_expired then
          match refresh td with
          | (None, _, _) =>
              (Ok (RedirectResponse 307 authorize_url),
               log (RefreshCall td) w1)
          | (Some new, _, _) =>
              (Raise (set_dict_exn w1),
               log (RedisSet (access_key (access_token new))
                             (PyMapping (model_dump new)) (expires_in new))
                   (log (RefreshCall td) w1))
          end
        else (Ok result, w1)
      else (Ok (PlainTextResponse 500 diagnostic), w1)
  end.
Proof.
  unfold verify_cached, bind.
  destruct (get_token tok w) as [[[[td |] b] | e] w1]; try done.
  destruct (String.eqb (access_token td) tok); [| done]. cbn [negb].
  destruct b; [| done]. unfold http_client_refresh_token.
  destruct (refresh td) as [[[new |] sc] body]; [| done].
  by rewrite save_token_unfold.
Qed.

(** A lookup starts with the read of the access-keyed entry. *)
Lemma get_token_reads_first key w :
  exists evs,
    trace (snd (get_token key w)) = trace w ++ RedisGet (access_key key) :: evs.
Proof.
  rewrite get_token_unfold. cbn zeta.
  repeat case_match; cbn [snd]; autorewrite with store;
    rewrite <- ?app_assoc; by eexists.
Qed.

(** Whatever [verify_cached] does, it starts by reading the access-keyed
    entry of the credential. *)
Lemma verify_cached_reads_first authorize_url refresh tok result w :
  exists evs,
    trace (snd (verify_cached authorize_url refresh tok result w)) =
      trace w ++ RedisGet (access_key tok) :: evs.
Proof.
  rewrite verify_cached_unfold.
  destruct (get_token_reads_first tok w) as [evs Hevs].
  destruct (get_token tok w) as [r w1]. cbn [snd] in Hevs.
  repeat case_match; simplify_eq; cbn [snd]; autorewrite with store;
    rewrite Hevs, <- ?app_assoc; cbn; by eexists.
Qed.

Section EndpointProperties.

Variable authorize_url : string.
Variable jwt_decode : string -> Result unit.
Variable refresh_token_upstream : TokenData -> option TokenData * Z * string.

Local Abbreviation verify :=
  (verify_endpoint authorize_url jwt_decode refresh_token_upstream).
Local Abbreviation cached :=
  (verify_cached authorize_url refresh_token_upstream).
Local Abbreviation redirect := (RedirectResponse 307 authorize_url).

(** A request with a credential that passes the signature check goes on
    to the cache lookup. *)
Lemma verify_endpoint_reaches_lookup req tok w :
  credential req = Some tok ->
  tok <> "" ->
  passes_signature_check jwt_decode tok = true ->
  verify req w = cached tok (Response_init HTTP_200_OK) w.
Proof.
  intros Hc Hne Hpass. unfold verify, verify_endpoint, utils_get_token.
  rewrite Hc, py_not_some_false by done.
  change (default "" (Some tok)) with tok.
  unfold passes_signature_check in Hpass.
  destruct (jwt_decode tok) as [[] | ex]; [reflexivity |].
  rewrite Hpass. reflexivity.
Qed.

(** C1: when the credential gets past the signature check and the cache
    lookup returns a TokenData whose access_token differs from the
    credential, the orchestrator answers 500 with the diagnostic body,
    not 200; nothing happens after the lookup, so there is no refresh
    call, no cache write and no cookie. *)
Theorem verify_endpoint_cache_corruption req tok td b w w1 :
  credential req = Some tok ->
  tok <> "" ->
  passes_signature_check jwt_decode tok = true ->
  get_token tok w = (Ok (Some td, b), w1) ->
  access_token td <> tok ->
  verify req w = (Ok (PlainTextResponse 500 diagnostic), w1) /\
  ServerError (PlainTextResponse 500 diagnostic) /\
  ~ Authenticated (PlainTextResponse 500 diagnostic) /\
  cookies (PlainTextResponse 500 diagnostic) = [] /\
  redis_db w1 = redis_db w /\
  exists evs, trace w1 = trace w ++ evs /\ forallb is_read evs = true.
Proof.
  intros Hc Hne Hpass Hget Hdiff.
  rewrite (verify_endpoint_reaches_lookup req tok w) by done.
  unfold cached, verify_cached, bind. rewrite Hget.
  rewrite (eqb_false_of_ne _ _ Hdiff). cbn [negb].
  destruct (get_token_frame _ _ _ _ Hget) as (Hdb & _ & _ & Hevs).
  repeat split; try done.
Qed.

(** C3: when the lookup yields the matching TokenData with the access
    lease lapsed and the upstream refresh answers absent, the
    orchestrator redirects to the authorize URL and leaves the cache as
    it was: the refresh call is the last thing it does, so no save is
    performed. *)
Theorem verify_endpoint_refresh_failure req tok td w w1 upstream_status body :
  credential req = Some tok ->
  tok <> "" ->
  passes_signature_check jwt_decode tok = true ->
  get_token tok w = (Ok (Some td, true), w1) ->
  access_token td = tok ->
  refresh_token_upstream td = (None, upstream_status, body) ->
  verify req w = (Ok redirect, log (RefreshCall td) w1) /\
  Unauthenticated authorize_url redirect /\
  redis_db (log (RefreshCall td) w1) = redis_db w /\
  exists evs,
    trace (log (RefreshCall td) w1) = trace w ++ evs /\
    forallb (fun ev => negb (is_write ev)) evs = true.
Proof.
  intros Hc Hne Hpass Hget Hsame Hup.
  rewrite (verify_endpoint_reaches_lookup req tok w) by done.
  unfold cached, verify_cached, bind, http_client_refresh_token.
  rewrite Hget, Hsame, String.eqb_refl, Hup. cbn [negb].
  destruct (get_token_frame _ _ _ _ Hget) as (Hdb & _ & _ & evs & Htr & Hrd).
  repeat split; try done.
  exists (evs ++ [RefreshCall td]). cbn. rewrite Htr, <- app_assoc.
  split; [done |]. rewrite forallb_app. cbn. rewrite andb_true_r.
  clear -Hrd. induction evs as [| [] evs IH]; cbn in *; try done.
  by apply IH.
Qed.


(** C5: a token that is malformed or whose signature does not verify is
    answered with the redirect to the authorize URL and the world is left
    as it was: no cache read, no cache write.  Of the tokens [jwt.decode]
    rejects, only the one rejected as expired causes any I/O, and it
    goes to the cache lookup. *)
Theorem verify_endpoint_invalid_signature req w ex :
  jwt_decode (default "" (credential req)) = Raise ex ->
  (isinstance_JWTError ex = true ->
   isinstance_ExpiredSignatureError ex = false ->
   verify req w = (Ok redirect, w) /\
   Unauthenticated authorize_url redirect) /\
  (snd (verify req w) <> w -> ex = ExpiredSignatureError) /\
  (ex = ExpiredSignatureError ->
   py_not (credential req) = false ->
   exists evs,
     trace (snd (verify req w)) =
       trace w ++ RedisGet (access_key (default "" (credential req))) :: evs).
Proof.
  intros Hdec. unfold verify, verify_endpoint, utils_get_token.
  destruct (py_not (credential req)) eqn:Hnot.
  { split; [done |]. split; [| done]. intros Hw. by destruct Hw. }
  rewrite Hdec. split; [| split].
  - by intros -> ->.
  - destruct ex; cbn; try done.
  - intros -> _. apply verify_cached_reads_first.
Qed.

(** C6: when the credential gets past the signature check and neither
    the access-keyed nor the refresh-keyed entry exists, the orchestrator
    redirects to the authorize URL; the answer is not the 500 of the
    corruption check. *)
Theorem verify_endpoint_cache_miss req tok w :
  credential req = Some tok ->
  passes_signature_check jwt_decode tok = true ->
  redis_down w = None ->
  live w (access_key tok) = None ->
  live w (refresh_key tok) = None ->
  exists w',
    verify req w = (Ok redirect, w') /\
    Unauthenticated authorize_url redirect /\
    ~ ServerError redirect /\
    redis_db w' = redis_db w.
Proof.
  intros Hc Hpass Hd Ha Hr.
  destruct (decide (tok = "")) as [-> | Hne].
  { exists w. unfold verify, verify_endpoint, utils_get_token.
    rewrite Hc. cbn. repeat split; try done. by intros [? _]. }
  rewrite (verify_endpoint_reaches_lookup req tok w) by done.
  unfold cached, verify_cached, bind.
  rewrite get_token_up, Ha, Hr by done. cbn.
  eexists. repeat split; try done. by intros [? _].
Qed.


End EndpointProperties.

Lemma verify_endpoint_cache_corruption_witness :
  verify_endpoint idp jwt_valid upstream_renews req_T1 w_corrupt =
    (Ok (PlainTextResponse 500 diagnostic),
     log (RedisGet (access_key "T1")) w_corrupt).
Proof.
  apply (verify_endpoint_cache_corruption idp jwt_valid upstream_renews
           req_T1 "T1" T2 false w_corrupt);
    [reflexivity | discriminate | reflexivity | reflexivity | discriminate].
Defined.

Lemma verify_endpoint_refresh_failure_witness :
  verify_endpoint idp jwt_expired upstream_rejects req_T1 w_stale =
    (Ok (RedirectResponse 307 idp),
     log (RefreshCall T1)
         (log (RedisGet (refresh_key "T1"))
              (log (RedisGet (access_key "T1")) w_stale))).
Proof.
  apply (verify_endpoint_refresh_failure idp jwt_expired upstream_rejects
           req_T1 "T1" T1 w_stale _ 401 "invalid_grant");
    [reflexivity | discriminate | reflexivity | reflexivity | reflexivity
    | reflexivity].
Defined.


Lemma verify_endpoint_invalid_signature_witness :
  verify_endpoint idp jwt_invalid upstream_renews req_T1 w_fresh =
    (Ok (RedirectResponse 307 idp), w_fresh).
Proof.
  apply (proj1 (verify_endpoint_invalid_signature idp jwt_invalid
                  upstream_renews req_T1 w_fresh JWTError eq_refl));
    reflexivity.
Defined.

Lemma verify_endpoint_cache_miss_witness :
  exists w',
    verify_endpoint idp jwt_valid upstream_renews req_T1 w_lapsed =
      (Ok (RedirectResponse 307 idp), w') /\
    Unauthenticated idp (RedirectResponse 307 idp) /\
    ~ ServerError (RedirectResponse 307 idp) /\
    redis_db w' = redis_db w_lapsed.
Proof.
  apply (verify_endpoint_cache_miss idp jwt_valid upstream_renews
           req_T1 "T1" w_lapsed); reflexivity.
Defined.



(** ** Re-presenting a credential after a refresh *)






(** * Further properties of the token cache *)

(** X1: a lookup only reads.  It leaves the contents, the clock and the
    health of the store as they were, and it performs either the one read
    of the access-keyed entry or, when the store answered that this entry
    is not there, that read followed by the read of the refresh-keyed
    entry. *)
Theorem get_token_read_only (key : string) (w : World) :
  let w' := snd (get_token key w) in
  redis_db w' = redis_db w /\
  redis_now w' = redis_now w /\
  redis_down w' = redis_down w /\
  (trace w' = trace w ++ [RedisGet (access_key key)] \/
   (trace w' =
      trace w ++ [RedisGet (access_key key); RedisGet (refresh_key key)] /\
    failing w = None /\ live w (access_key key) = None)).
Proof.
  cbn zeta. rewrite get_token_unfold. cbn zeta.
  repeat case_match; cbn [snd]; autorewrite with store;
    rewrite <- ?app_assoc; cbn; auto 10.
Qed.

(** X3: a save never completes.  It ends at its first [redis.set] in the
    [DataError] of the client, which does not encode the [dict] it is
    given, or in [ConnectionError] when the store refuses the connection;
    the second [redis.set] is never reached and the contents of the store
    stay as they were, whatever the token and the state of the store. *)
Theorem save_token_never_completes (key : string) (token : TokenData)
    (w : World) :
  (fst (save_token key token w) = Raise DataError \/
   fst (save_token key token w) = Raise ConnectionError) /\
  (fst (save_token key token w) = Raise ConnectionError <->
   failing w = Some ConnectionError) /\
  redis_db (snd (save_token key token w)) = redis_db w /\
  new_events w (snd (save_token key token w)) =
    [RedisSet (access_key key) (PyMapping (model_dump token))
              (expires_in token)].
Proof.
  rewrite save_token_unfold. cbn [fst snd]. unfold set_dict_exn.
  split; [| split; [| split]].
  - destruct (failing w) as [[] |]; auto.
  - destruct (failing w) as [[] |]; split; (done || intros [=]).
  - done.
  - unfold new_events. cbn. by rewrite drop_app_length.
Qed.

(** On a store that does not answer in time the save ends in the
    client's error all the same; on one that refuses connections it ends
    in [ConnectionError]. *)
Example save_token_on_failing_stores :
  fst (save_token "T1" T1 w_timeout) = Raise DataError /\
  fst (save_token "T1" T1 w_refusing) = Raise ConnectionError.
Proof. split; reflexivity. Qed.

(** X4: a save under one key does not change what a lookup of any other
    key answers. *)
Theorem save_token_other_keys (key key' : string) (token : TokenData)
    (w : World) :
  key' <> key ->
  fst (get_token key' (snd (save_token key token w))) =
  fst (get_token key' w).
Proof.
  intros _. rewrite save_token_unfold. cbn [snd].
  by apply get_token_result_ext.
Qed.

Lemma save_token_other_keys_witness :
  fst (get_token "T1" (snd (save_token "T2" T2 w_fresh))) =
  fst (get_token "T1" w_fresh).
Proof. apply (save_token_other_keys "T2" "T1" T2 w_fresh). discriminate. Defined.

(** X15: what a Redis server hands back cannot be deserialized.  When the
    record a lookup reads is bytes, the lookup raises [TypeError] instead
    of returning a TokenData. *)
Theorem get_token_bytes_record_raises (key : string) (w : World) (b : string) :
  redis_down w = None ->
  record_read w key = Some (PyBytes b) ->
  fst (get_token key w) = Raise TypeError.
Proof.
  intros Hd Hrec. rewrite get_token_up by done. unfold record_read in Hrec.
  destruct (live w (access_key key)) as [v |].
  - by injection Hrec as ->.
  - cbn zeta. by rewrite Hrec.
Qed.

Lemma get_token_bytes_record_raises_witness :
  fst (get_token "T1" w_bytes) = Raise TypeError.
Proof.
  apply (get_token_bytes_record_raises "T1" w_bytes "T1"); reflexivity.
Defined.

(** * Further properties of the verification orchestrator *)

(** What [verify_endpoint] does before the cache lookup. *)
Lemma verify_endpoint_unfold authorize_url jwt_decode refresh req w :
  (py_not (credential req) = true /\
   verify_endpoint authorize_url jwt_decode refresh req w =
     (Ok (RedirectResponse 307 authorize_url), w)) \/
  (exists tok,
      credential req = Some tok /\ tok <> "" /\
      ((passes_signature_check jwt_decode tok = true /\
        verify_endpoint authorize_url jwt_decode refresh req w =
          verify_cached authorize_url refresh tok
            (Response_init HTTP_200_OK) w) \/
       (passes_signature_check jwt_decode tok = false /\
        (verify_endpoint authorize_url jwt_decode refresh req w =
           (Ok (RedirectResponse 307 authorize_url), w) \/
         exists e,
           verify_endpoint authorize_url jwt_decode refresh req w =
             (Raise e, w))))).
Proof.
  unfold verify_endpoint, utils_get_token, passes_signature_check.
  destruct (credential req) as [[| c tok] |]; cbn [py_not]; [by left | | by left].
  right. exists (String c tok). split; [done |]. split; [done |].
  change (default "" (Some (String c tok))) with (String c tok).
  destruct (jwt_decode (String c tok)) as [[] | ex]; [by left |].
  destruct (isinstance_ExpiredSignatureError ex); [by left |].
  right. split; [done |].
  destruct (isinstance_JWTError ex); [by left |]. right. by eexists.
Qed.



(** X7: the orchestrator answers 200 only for a request that carries a
    non-empty credential which passed the signature check and for which
    the store held a live record that deserializes to a TokenData with that
    very access_token. *)
Theorem verify_endpoint_authenticated_sound authorize_url jwt_decode refresh
    req w r w' :
  verify_endpoint authorize_url jwt_decode refresh req w = (Ok r, w') ->
  status_code r = 200 ->
  exists tok value td,
    credential req = Some tok /\ tok <> "" /\
    passes_signature_check jwt_decode tok = true /\
    record_read w tok = Some value /\
    TokenData_init value = Ok td /\
    access_token td = tok.
Proof.
  intros Hrun H200.
  destruct (verify_endpoint_unfold authorize_url jwt_decode refresh req w)
    as [[_ Heq] | (tok & Hc & Hne & [[Hpass Heq] | [_ [Heq | [e Heq]]]])];
    rewrite Heq in Hrun; try (injection Hrun as <- <-; discriminate);
    try discriminate.
  rewrite verify_cached_unfold in Hrun.
  destruct (get_token tok w) as [[[[td |] b] | e] w1] eqn:Hget;
    try discriminate; [| injection Hrun as <- <-; discriminate].
  destruct (get_token_found_inv _ _ _ _ _ Hget) as (_ & v & Hv & Hlive).
  destruct (String.eqb_spec (access_token td) tok) as [Hsame |];
    [| injection Hrun as <- <-; discriminate].
  exists tok, v, td. unfold record_read.
  destruct b; [destruct Hlive as [-> ->] | rewrite Hlive]; auto 10.
Qed.

Lemma verify_endpoint_authenticated_sound_witness :
  exists tok value td,
    credential req_T1 = Some tok /\ tok <> "" /\
    passes_signature_check jwt_valid tok = true /\
    record_read w_fresh tok = Some value /\
    TokenData_init value = Ok td /\
    access_token td = tok.
Proof.
  apply (verify_endpoint_authenticated_sound idp jwt_valid upstream_renews
           req_T1 w_fresh (Response_init HTTP_200_OK)
           (log (RedisGet (access_key "T1")) w_fresh));
    reflexivity.
Defined.

(** X8: no response of [verify_endpoint] carries a cookie.  The one
    [set_cookie] of the endpoint comes after [save_token], which never
    completes, so a response that is returned is the redirect, the 500 or
    the plain 200. *)
Theorem verify_endpoint_never_sets_cookie authorize_url jwt_decode refresh
    req w r w' :
  verify_endpoint authorize_url jwt_decode refresh req w = (Ok r, w') ->
  cookies r = [] /\
  (r = RedirectResponse 307 authorize_url \/
   r = PlainTextResponse 500 diagnostic \/
   r = Response_init HTTP_200_OK).
Proof.
  intros Hrun.
  destruct (verify_endpoint_unfold authorize_url jwt_decode refresh req w)
    as [[_ Heq] | (tok & Hc & Hne & [[Hpass Heq] | [_ [Heq | [e Heq]]]])];
    rewrite Heq in Hrun; try (injection Hrun as <- <-; by auto);
    try discriminate.
  rewrite verify_cached_unfold in Hrun.
  repeat case_match; simplify_eq; auto.
Qed.

Lemma verify_endpoint_never_sets_cookie_witness :
  cookies (Response_init HTTP_200_OK) = [] /\
  (Response_init HTTP_200_OK = RedirectResponse 307 idp \/
   Response_init HTTP_200_OK = PlainTextResponse 500 diagnostic \/
   Response_init HTTP_200_OK = Response_init HTTP_200_OK).
Proof.
  apply (verify_endpoint_never_sets_cookie idp jwt_valid upstream_renews
           req_T1 w_fresh (Response_init HTTP_200_OK)
           (log (RedisGet (access_key "T1")) w_fresh)).
  reflexivity.
Defined.

(** X9: what one request costs.  Whatever the request and the state of
    the store, [verify_endpoint] only appends to the log, and what it
    appends holds at most two reads of the store, at most one call of the
    upstream and at most two writes to the store. *)
Theorem verify_endpoint_io_bounds authorize_url jwt_decode refresh req w :
  exists evs,
    trace (snd (verify_endpoint authorize_url jwt_decode refresh req w)) =
      trace w ++ evs /\
    (count is_read evs <= 2)%nat /\
    (count is_refresh evs <= 1)%nat /\
    (count is_write evs <= 2)%nat.
Proof.
  assert (Hnil : forall w0 : World, exists evs,
    trace w0 = trace w0 ++ evs /\
    (count is_read evs <= 2)%nat /\ (count is_refresh evs <= 1)%nat /\
    (count is_write evs <= 2)%nat).
  { intros w0. exists []. rewrite app_nil_r. cbn. repeat split; lia. }
  destruct (verify_endpoint_unfold authorize_url jwt_decode refresh req w)
    as [[_ Heq] | (tok & Hc & Hne & [[Hpass Heq] | [_ [Heq | [e Heq]]]])];
    rewrite Heq; try apply Hnil.
  rewrite verify_cached_unfold, get_token_unfold. cbn zeta.
  repeat case_match; simplify_eq; cbn [snd]; autorewrite with store;
    rewrite <- ?app_assoc;
    (eexists; split; [reflexivity | cbn; repeat split; lia]).
Qed.

(** * Properties of the callback *)

Section CallbackProperties.

Variable home_url : string.
Variable http_client_get_token : string -> option TokenData * Z * string.

Local Abbreviation callback := (oidc_callback home_url http_client_get_token).

(** X11: every response the callback returns is the relay of a refusal of
    the identity provider: its status code and body, with no cookie and no
    redirect.  The redirect to the home URL with the [access_token]
    cookie is never returned. *)
Theorem oidc_callback_responses (request : CallbackRequest) (w : World)
    (r : Response) :
  fst (callback request w) = Responded r ->
  exists code upstream_status body,
    query_params request !! "code" = Some code /\
    http_client_get_token code = (None, upstream_status, body) /\
    r = Response_content upstream_status body /\
    cookies r = [] /\ location r = None.
Proof.
  unfold oidc_callback. intros Hres.
  destruct (query_params request !! "code") as [code |]; [| discriminate].
  destruct (http_client_get_token code) as [[[td |] sc] body] eqn:Hex.
  - rewrite save_token_unfold in Hres. discriminate.
  - injection Hres as <-. by exists code, sc, body.
Qed.

(** X12: without a token the callback leaves the world as it is, store
    and log.  A request without [code] ends in the [KeyError] of the
    missing parameter; a code the identity provider does not exchange is
    answered with the provider's status code and body as they came, with no
    cookie and no redirect. *)
Theorem oidc_callback_without_token (request : CallbackRequest) (w : World) :
  (query_params request !! "code" = None ->
   callback request w = (KeyError "code", w)) /\
  (forall code upstream_status body,
      query_params request !! "code" = Some code ->
      http_client_get_token code = (None, upstream_status, body) ->
      callback request w =
        (Responded (Response_content upstream_status body), w) /\
      status_code (Response_content upstream_status body) = upstream_status /\
      content (Response_content upstream_status body) = body /\
      cookies (Response_content upstream_status body) = [] /\
      location (Response_content upstream_status body) = None).
Proof.
  unfold oidc_callback. split.
  - by intros ->.
  - intros code sc body -> ->. by repeat split.
Qed.

(** X14: a callback that obtained a token from the identity provider ends
    in the exception of [save_token] at its first [redis.set]: the
    client's [DataError], or [ConnectionError] when the store refuses the
    connection.  No response, hence no cookie, is produced, and the
    contents of the store stay as they were. *)
Theorem oidc_callback_token_raises (request : CallbackRequest) (w : World)
    code td upstream_status body :
  query_params request !! "code" = Some code ->
  http_client_get_token code = (Some td, upstream_status, body) ->
  exists e,
    callback request w =
      (Propagated e,
       log (RedisSet (access_key (access_token td)) (PyMapping (model_dump td))
                     (expires_in td)) w) /\
    (e = DataError \/ e = ConnectionError) /\
    (e = ConnectionError <-> failing w = Some ConnectionError) /\
    redis_db (snd (callback request w)) = redis_db w.
Proof.
  intros Hcode Hex. unfold oidc_callback.
  rewrite Hcode, Hex, save_token_unfold. exists (set_dict_exn w).
  unfold set_dict_exn. split; [done |]. split; [| split; [| done]].
  - destruct (failing w) as [[] |]; auto.
  - destruct (failing w) as [[] |]; split; (done || intros [=]).
Qed.

End CallbackProperties.

Lemma oidc_callback_responses_witness :
  exists code upstream_status body,
    query_params req_code !! "code" = Some code /\
    exchange_rejects code = (None, upstream_status, body) /\
    Response_content 400 "invalid_grant" =
      Response_content upstream_status body /\
    cookies (Response_content 400 "invalid_grant") = [] /\
    location (Response_content 400 "invalid_grant") = None.
Proof.
  apply (oidc_callback_responses home exchange_rejects req_code w_empty
           (Response_content 400 "invalid_grant")).
  reflexivity.
Defined.

Lemma oidc_callback_without_token_witness :
  oidc_callback home exchange_rejects (mkCallbackRequest ∅) w_empty =
    (KeyError "code", w_empty) /\
  oidc_callback home exchange_rejects req_code w_empty =
    (Responded (Response_content 400 "invalid_grant"), w_empty).
Proof.
  split.
  - apply (proj1 (oidc_callback_without_token home exchange_rejects
                    (mkCallbackRequest ∅) w_empty)).
    reflexivity.
  - apply (proj2 (oidc_callback_without_token home exchange_rejects
                    req_code w_empty) "abc" 400 "invalid_grant");
      reflexivity.
Defined.

Lemma oidc_callback_token_raises_witness :
  exists e,
    oidc_callback home exchange_grants req_code w_empty =
      (Propagated e,
       log (RedisSet (access_key "T1") (PyMapping (model_dump T1)) 5)
           w_empty) /\
    (e = DataError \/ e = ConnectionError) /\
    (e = ConnectionError <-> failing w_empty = Some ConnectionError) /\
    redis_db (snd (oidc_callback home exchange_grants req_code w_empty)) =
      redis_db w_empty.
Proof.
  apply (oidc_callback_token_raises home exchange_grants req_code w_empty
           "abc" T1 200 ""); reflexivity.
Defined.
